(** * Configuration resolution of graphile-migrate: [src/commands/_common.ts]

    A shallow embedding of the settings resolver ([getSettings] with its two
    loaders [getSettingsFromJSON] and [tryRequire]), of the existence probe
    [exists], of [getDatabaseName] and of [readStdin], followed by the
    properties of the resolver that the specification states and by further
    properties of the module.

    The Node runtime (file system, JSON5 parser, dynamic [import], [path] and
    [url] helpers, [pg-connection-string]) is not part of the module: it is a
    record [Env] of oracles, and every theorem quantifies over it.  The
    asynchronous functions are sequential, so a promise is modelled by the
    list of runtime calls it performed together with how it settled. *)

From Stdlib Require Import String Ascii List Bool Arith Lia ZArith SpecFloat.
Import ListNotations.
Local Open Scope list_scope.
Local Open Scope string_scope.
Set Warnings "-register-all".

(** ** JavaScript data *)

(** The line feed matched by the regular expression [/\n/g]. *)
Definition LF : ascii := ascii_of_nat 10.

(** The values that a promise can be fulfilled with as they are: data, with
    numbers as IEEE 754 binary floating-point values.  None of them is
    callable, so none of them, nor any object built from them, is a thenable. *)
Inductive JsValue : Type :=
| JsUndefined
| JsNull
| JsBool (b : bool)
| JsNumber (x : spec_float)
| JsString (s : string)
| JsArray (items : list JsValue)
| JsObject (props : list (string * JsValue)).

(** First binding of [key] in a table keyed by strings. *)
Fixpoint assoc {A : Type} (l : list (string * A)) (key : string) : option A :=
  match l with
  | [] => None
  | (k, v) :: rest => if String.eqb k key then Some v else assoc rest key
  end.

(** What a [catch (e)] clause of the module can observe of [e]:
    [e instanceof Error], [e.message], [e.stack] and [String(e)]. *)
Inductive Caught : Type :=
| ErrorObject (name message : string) (stack : option string)
| NonError (string_form : string).

(** What becomes of a promise that is resolved with a thenable (a promise, or
    any object whose [then] is callable): it is fulfilled with the value that
    the thenable ends up delivering, rejected with the reason that the
    thenable gives, or left pending for ever. *)
Inductive Settlement : Type :=
| FulfilsWith (v : JsValue)
| RejectsWith (reason : Caught)
| NeverSettles.

(** What a module can export: a plain value, or a thenable, known by what
    adopting it leads to. *)
Inductive Exported : Type :=
| Plain (v : JsValue)
| Thenable (settles : Settlement).

(** A module namespace object: the exports by name. *)
Definition ModuleNamespace : Type := list (string * Exported).

(** Property access [m.key]: an absent export reads as [undefined]. *)
Definition get_property (m : ModuleNamespace) (key : string) : Exported :=
  match assoc m key with
  | Some x => x
  | None => Plain JsUndefined
  end.

Definition is_empty (s : string) : bool :=
  match s with
  | EmptyString => true
  | String _ _ => false
  end.

(** [String(e)]: [Error.prototype.toString] for errors. *)
Definition String_ (e : Caught) : string :=
  match e with
  | ErrorObject name message _ =>
      if is_empty name then message
      else if is_empty message then name
      else name ++ ": " ++ message
  | NonError s => s
  end.

(** [e instanceof Error ? e.message : String(e)] *)
Definition cause_message (e : Caught) : string :=
  match e with
  | ErrorObject _ message _ => message
  | NonError _ => String_ e
  end.

(** [s.replace(/\n/g, "\n    ")] *)
Fixpoint replace_newlines (s : string) : string :=
  match s with
  | EmptyString => EmptyString
  | String c rest =>
      if Ascii.eqb c LF
      then String LF ("    " ++ replace_newlines rest)
      else String c (replace_newlines rest)
  end.

(** [e instanceof Error && e.stack ? e.stack.replace(/\n/g, "\n    ") : String(e)];
    an absent or empty stack is falsy. *)
Definition cause_text (e : Caught) : string :=
  match e with
  | ErrorObject _ _ (Some stack) =>
      if is_empty stack then String_ e else replace_newlines stack
  | _ => String_ e
  end.

(** [s.endsWith(searchString)] *)
Definition endsWith (s searchString : string) : bool :=
  let len := String.length s in
  let searchLength := String.length searchString in
  if (len <? searchLength)%nat then false
  else String.eqb (substring (len - searchLength) searchLength s) searchString.

(** ** The runtime *)

(** The field [database] of the object returned by [parse]. *)
Inductive Field : Type :=
| FieldUndefined
| FieldNull
| FieldString (s : string).

Record ConnectionOptions : Type := { database : Field }.

Record Env : Type := {
  process_cwd : string;
  path_resolve : string -> string -> string;
  pathToFileURL_href : string -> string;
  fsp_access : string -> Caught + unit;
  fsp_readFile : string -> Caught + string;
  JSON5_parse : string -> Caught + JsValue;
  dynamic_import : string -> Caught + ModuleNamespace;
  pg_parse : string -> Caught + ConnectionOptions
}.

(** ** Calls, outcomes and promises *)

Inductive Event : Type :=
| Access (path : string)
| ReadFile (path : string)
| DynamicImport (specifier : string).

Definition Trace : Type := list Event.

(** [NewError m] is [new Error(m)] thrown by this module; [Uncaught e] is an
    exception of a library call, or the rejection reason of an adopted
    thenable, that no [catch] of the module intercepts. *)
Inductive Exception : Type :=
| NewError (message : string)
| Uncaught (e : Caught).

(** How a call ends: for a promise, fulfilled, rejected, or never settled. *)
Inductive Outcome (A : Type) : Type :=
| Returns (value : A)
| Throws (e : Exception)
| Pending.
Arguments Returns {A} value.
Arguments Throws {A} e.
Arguments Pending {A}.

Definition Promise (A : Type) : Type := (Trace * Outcome A)%type.

Definition trace {A} (p : Promise A) : Trace := fst p.
Definition outcome {A} (p : Promise A) : Outcome A := snd p.

Definition ret {A} (a : A) : Promise A := ([], Returns a).
Definition throw {A} (e : Exception) : Promise A := ([], Throws e).
Definition perform (ev : Event) : Promise unit := ([ev], Returns tt).
Definition pending {A} : Promise A := ([], Pending).

(** [return x] in an [async] function, outside any [await]: the promise of
    the function is resolved with [x].  A plain value fulfils it; a thenable
    is adopted, after the function body and its [try] blocks have been left,
    so that its rejection reason comes out as it is. *)
Definition async_return (x : Exported) : Promise JsValue :=
  match x with
  | Plain v => ret v
  | Thenable (FulfilsWith v) => ret v
  | Thenable (RejectsWith reason) => throw (Uncaught reason)
  | Thenable NeverSettles => pending
  end.

Definition bind {A B} (m : Promise A) (k : A -> Promise B) : Promise B :=
  match m with
  | (t, Returns a) => let (t', r) := k a in ((t ++ t')%list, r)
  | (t, Throws e) => (t, Throws e)
  | (t, Pending) => (t, Pending)
  end.

Notation "x <- m ;; k" := (bind m (fun x => k))
  (at level 61, m at next level, right associativity).
Notation "m ;; k" := (bind m (fun _ => k))
  (at level 61, right associativity).

(** ** The module *)

Section Module.

Variable env : Env.

Definition DEFAULT_GMRC_PATH : string := process_cwd env ++ "/.gmrc".
Definition DEFAULT_GMRCJS_PATH : string := DEFAULT_GMRC_PATH ++ ".js".
Definition DEFAULT_GMRC_COMMONJS_PATH : string := DEFAULT_GMRC_PATH ++ ".cjs".

Definition exists_ (path : string) : Promise bool :=
  perform (Access path) ;;
  match fsp_access env path with
  | inr _ => ret true
  | inl _ => ret false
  end.

(** [JSON5.parse] yields data, never a thenable, so that the value returned
    fulfils the promise as it is. *)
Definition getSettingsFromJSON (path : string) : Promise JsValue :=
  perform (ReadFile path) ;;
  match fsp_readFile env path with
  | inl e =>
      throw (NewError ("Failed to read '" ++ path ++ "': " ++ cause_message e))
  | inr data =>
      match JSON5_parse env data with
      | inr v => ret v
      | inl e =>
          throw (NewError ("Failed to parse '" ++ path ++ "': " ++ cause_message e))
      end
  end.

Record Options : Type := { configFile : option string }.

(** [pathToFileURL(resolve(process.cwd(), path)).href] *)
Definition relativePath (path : string) : string :=
  pathToFileURL_href env (path_resolve env (process_cwd env) path).

Definition tryRequire (path : string) : Promise JsValue :=
  let relativePath := relativePath path in
  perform (DynamicImport relativePath) ;;
  match dynamic_import env relativePath with
  | inr module => async_return (get_property module "default")
  | inl e =>
      throw (NewError ("Failed to import '" ++ relativePath ++ "'; error:"
                       ++ String LF "    " ++ cause_text e))
  end.

Definition getSettings (options : Options) : Promise JsValue :=
  match configFile options with
  | Some configFile =>
      found <- exists_ configFile ;;
      if negb found
      then throw (NewError ("Failed to import '" ++ configFile ++ "': file not found"))
      else
        if endsWith configFile ".js"
           || endsWith configFile ".cjs"
           || endsWith configFile ".mjs"
        then tryRequire configFile
        else getSettingsFromJSON configFile
  | None =>
      found <- exists_ DEFAULT_GMRC_PATH ;;
      if found then getSettingsFromJSON DEFAULT_GMRC_PATH
      else
        foundjs <- exists_ DEFAULT_GMRCJS_PATH ;;
        if foundjs then tryRequire DEFAULT_GMRCJS_PATH
        else
          foundcjs <- exists_ DEFAULT_GMRC_COMMONJS_PATH ;;
          if foundcjs then tryRequire DEFAULT_GMRC_COMMONJS_PATH
          else
            throw (NewError
              "No .gmrc file found; please run `graphile-migrate init` first.")
  end.

(** [!databaseName] *)
Definition falsy (f : Field) : bool :=
  match f with
  | FieldUndefined | FieldNull => true
  | FieldString s => is_empty s
  end.

(** The string that a truthy field holds. *)
Definition string_of_field (f : Field) : string :=
  match f with
  | FieldString s => s
  | FieldUndefined | FieldNull => EmptyString
  end.

Definition getDatabaseName (connectionString : string) : Outcome string :=
  match pg_parse env connectionString with
  | inl e => Throws (Uncaught e)
  | inr parsed =>
      let databaseName := database parsed in
      if falsy databaseName
      then Throws (NewError "Could not determine database name from connection string.")
      else Returns (string_of_field databaseName)
  end.

End Module.

(** ** Standard input *)

(** What [process.stdin] does once the listeners of [readStdin] are set:
    [OnReadable chunks] is a ['readable'] event during which the calls of
    [process.stdin.read()] return the strings [chunks], in order, and then
    [null]; [OnEnd] is the ['end'] event; [OnError e] is an ['error'] event
    carrying [e]. *)
Inductive StdinEvent : Type :=
| OnReadable (chunks : list string)
| OnEnd
| OnError (e : Caught).

(** The variable [data] of the closure and the state of the promise:
    [None] while it is pending. *)
Record StdinState : Type := {
  data : string;
  settled : option (Outcome string)
}.

(** [resolve(value)]: settles a pending promise, does nothing otherwise. *)
Definition resolve (value : string) (st : StdinState) : StdinState :=
  match settled st with
  | None => {| data := data st; settled := Some (Returns value) |}
  | Some _ => st
  end.

(** [reject(e)]: settles a pending promise, does nothing otherwise. *)
Definition reject (e : Caught) (st : StdinState) : StdinState :=
  match settled st with
  | None => {| data := data st; settled := Some (Throws (Uncaught e)) |}
  | Some _ => st
  end.

(** The loop [while ((chunk = process.stdin.read()) !== null) data += chunk]. *)
Definition read_loop (chunks : list string) (st : StdinState) : StdinState :=
  {| data := fold_left (fun data chunk => data ++ chunk) chunks (data st);
     settled := settled st |}.

(** The listener that the event reaches. *)
Definition listener (st : StdinState) (ev : StdinEvent) : StdinState :=
  match ev with
  | OnError e => reject e st
  | OnReadable chunks => read_loop chunks st
  | OnEnd => resolve (data st) st
  end.

(** [readStdin()], against the events that the stream then emits: how the
    returned promise has settled after them, if it has. *)
Definition readStdin (events : list StdinEvent) : option (Outcome string) :=
  settled (fold_left listener events {| data := EmptyString; settled := None |}).

(** ** Observations on a run *)

(** The paths handed to the existence probe, in order. *)
Fixpoint probes (t : Trace) : list string :=
  match t with
  | [] => []
  | Access p :: rest => p :: probes rest
  | _ :: rest => probes rest
  end.

(** The loader calls (file reads and dynamic imports), in order. *)
Fixpoint loads (t : Trace) : list Event :=
  match t with
  | [] => []
  | Access _ :: rest => loads rest
  | ev :: rest => ev :: loads rest
  end.

(** The Dynamic Module Loader ran: some module was imported. *)
Definition uses_dynamic (t : Trace) : Prop :=
  exists ref, In (DynamicImport ref) t.

(** The Relaxed-Data Loader ran: some file was read. *)
Definition uses_relaxed (t : Trace) : Prop := exists path, In (ReadFile path) t.

(** The path ends in one of the three code-style suffixes. *)
Definition code_suffix (path : string) : Prop :=
  exists stem, path = stem ++ ".js" \/ path = stem ++ ".cjs" \/ path = stem ++ ".mjs".

Definition lower_ascii (c : ascii) : ascii :=
  let n := nat_of_ascii c in
  if ((65 <=? n)%nat && (n <=? 90)%nat)%bool then ascii_of_nat (n + 32) else c.

Fixpoint to_lower (s : string) : string :=
  match s with
  | EmptyString => EmptyString
  | String c rest => String (lower_ascii c) (to_lower rest)
  end.

(** [v] spells [suffix] with at least one letter in upper case. *)
Definition case_variant (v suffix : string) : Prop :=
  to_lower v = suffix /\ v <> suffix.

(** Every line feed of [s] is followed by four spaces. *)
Fixpoint newlines_indented (s : string) : bool :=
  match s with
  | EmptyString => true
  | String c rest =>
      (if Ascii.eqb c LF then prefix "    " rest else true) && newlines_indented rest
  end.

(** The lines of [s], split at line feeds. *)
Fixpoint split_lines (s : string) : list string :=
  match s with
  | EmptyString => [EmptyString]
  | String c rest =>
      if Ascii.eqb c LF then EmptyString :: split_lines rest
      else match split_lines rest with
           | l :: ls => String c l :: ls
           | [] => [String c EmptyString]
           end
  end.

(** The first line as it is, every later line behind four spaces. *)
Definition indent_tail (ls : list string) : list string :=
  match ls with
  | [] => []
  | l :: rest => l :: map (append "    ") rest
  end.

Definition is_error {A} (o : Outcome A) : Prop := exists e, o = Throws e.

(** [Failed to import '<ref>'; error:\n    <cause>] *)
Definition import_failure (ref cause : string) : string :=
  "Failed to import '" ++ ref ++ "'; error:" ++ String LF "    " ++ cause.

(** The answer of the existence probe for [path]. *)
Definition probe (env : Env) (path : string) : bool :=
  match fsp_access env path with
  | inr _ => true
  | inl _ => false
  end.

(** What a call did, and how it ended. *)
Section Endings.

Variables (env : Env) (options : Options) (run : Promise JsValue).



Definition fails : Prop := is_error (outcome run).



End Endings.

(** The runtime [env] with [access] in place of its [fsp.access]. *)
Definition with_access (env : Env) (access : string -> Caught + unit) : Env :=
  {| process_cwd := process_cwd env;
     path_resolve := path_resolve env;
     pathToFileURL_href := pathToFileURL_href env;
     fsp_access := access;
     fsp_readFile := fsp_readFile env;
     JSON5_parse := JSON5_parse env;
     dynamic_import := dynamic_import env;
     pg_parse := pg_parse env |}.

(** The probe on [path] was made and found nothing. *)
Definition failed_probe (env : Env) (ev : Event) : Prop :=
  exists path, ev = Access path /\ probe env path = false.

(** [s] holds no line feed. *)
Fixpoint no_newline (s : string) : bool :=
  match s with
  | EmptyString => true
  | String c rest => negb (Ascii.eqb c LF) && no_newline rest
  end.

(** An event of the stream that delivers text only. *)
Definition is_readable (ev : StdinEvent) : Prop :=
  exists chunks, ev = OnReadable chunks.

(** All the text that the events deliver, in order. *)
Fixpoint received (events : list StdinEvent) : string :=
  match events with
  | [] => EmptyString
  | OnReadable chunks :: rest => String.concat EmptyString chunks ++ received rest
  | _ :: rest => received rest
  end.

(** A stream that delivers [hello world] in three chunks over two events. *)
Definition hello_events : list StdinEvent :=
  [OnReadable ["hel"; "lo "]; OnReadable ["world"]].

(** ** A small runtime to run the module on *)

Definition ENOENT : Caught :=
  ErrorObject "Error" "ENOENT: no such file or directory"
    (Some "Error: ENOENT: no such file or directory").

Definition JSON5_SyntaxError : Caught :=
  ErrorObject "SyntaxError" "JSON5: invalid end of input"
    (Some "SyntaxError: JSON5: invalid end of input").

(** A runtime over a working directory [cwd], files with their text, the
    values of the texts that parse, the modules by reference with what
    importing them yields, and the parsed connection strings. *)
Definition node (cwd : string) (files : list (string * string))
    (values : list (string * JsValue))
    (modules : list (string * (Caught + ModuleNamespace)))
    (connections : list (string * Field)) : Env :=
  {| process_cwd := cwd;
     path_resolve := fun from to => if prefix "/" to then to else from ++ "/" ++ to;
     pathToFileURL_href := fun p => "file://" ++ p;
     fsp_access := fun p =>
       match assoc files p with Some _ => inr tt | None => inl ENOENT end;
     fsp_readFile := fun p =>
       match assoc files p with Some text => inr text | None => inl ENOENT end;
     JSON5_parse := fun text =>
       match assoc values text with Some v => inr v | None => inl JSON5_SyntaxError end;
     dynamic_import := fun ref =>
       match assoc modules ref with Some r => r | None => inl ENOENT end;
     pg_parse := fun cs =>
       match assoc connections cs with
       | Some f => inr {| database := f |}
       | None => inr {| database := FieldUndefined |}
       end |}.

(** The doubles 1, 2 and 3. *)
Definition double_1 : spec_float := S754_finite false 4503599627370496 (-52).
Definition double_2 : spec_float := S754_finite false 4503599627370496 (-51).
Definition double_3 : spec_float := S754_finite false 6755399441055744 (-51).

(** A project with nothing in it. *)
Definition empty_project : Env := node "/app" [] [] [] [].

(** A project holding all three default files. *)
Definition full_project : Env :=
  node "/app"
    [("/app/.gmrc", "{ rc: 1 }"); ("/app/.gmrc.js", "module.exports = 2");
     ("/app/.gmrc.cjs", "module.exports = 3")]
    [("{ rc: 1 }", JsObject [("rc", JsNumber double_1)])]
    [("file:///app/.gmrc.js", inr [("default", Plain (JsNumber double_2))]);
     ("file:///app/.gmrc.cjs", inr [("default", Plain (JsNumber double_3))])]
    [].

(** A project whose only default file is [.gmrc.js]. *)
Definition js_project : Env :=
  node "/app"
    [("/app/.gmrc.js", "module.exports = 2"); ("conf.JS", "{ rc: 1 }");
     ("conf.json5", "{ rc: 1 }"); ("conf.mjs", "export const a = 1")]
    [("{ rc: 1 }", JsObject [("rc", JsNumber double_1)])]
    [("file:///app/.gmrc.js", inr [("default", Plain (JsNumber double_2))]);
     ("file:///app/conf.mjs", inr [("a", Plain (JsNumber double_1))]);
     ("file:///app/throws.js", inl (NonError ("first" ++ String LF "second")));
     ("file:///app/broken.js",
      inl (ErrorObject "SyntaxError" "Unexpected token"
             (Some ("SyntaxError: Unexpected token" ++ String LF "    at conf.js:1"))))]
    [("postgres://localhost/app_db", FieldString "app_db");
     ("postgres://localhost/", FieldString EmptyString);
     ("postgres://localhost", FieldNull)].

(** A project whose only default file is [.gmrc.cjs]. *)
Definition cjs_project : Env :=
  node "/app"
    [("/app/.gmrc.cjs", "module.exports = 3")]
    []
    [("file:///app/.gmrc.cjs", inr [("default", Plain (JsNumber double_3))])]
    [].


(** A project whose [.gmrc.js] exports a promise that rejects, and whose
    [later.js] exports one that fulfils. *)
Definition promise_project : Env :=
  node "/app"
    [("/app/.gmrc.js", "module.exports = Promise.reject(...)");
     ("later.js", "module.exports = Promise.resolve(...)")]
    []
    [("file:///app/.gmrc.js",
      inr [("default", Thenable (RejectsWith (NonError "no settings")))]);
     ("file:///app/later.js",
      inr [("default", Thenable (FulfilsWith (JsObject [("rc", JsNumber double_1)])))])]
    [].

(** ** Proof tools *)

(** Splits a string of unknown length that is equated with a literal. *)
Ltac peel n x :=
  match n with
  | O => idtac
  | S ?k => destruct x as [|? x]; simpl in *; try discriminate; try peel k x
  end.

(** ** Strings *)

Lemma length_append (a b : string) :
  String.length (a ++ b) = String.length a + String.length b.
Proof. induction a as [|c a IH]; simpl; [reflexivity | now rewrite IH]. Qed.

Lemma substring_whole (s : string) : substring 0 (String.length s) s = s.
Proof. induction s as [|c s IH]; simpl; [reflexivity | now rewrite IH]. Qed.

Lemma substring_after (p s : string) (m : nat) :
  substring (String.length p) m (p ++ s) = substring 0 m s.
Proof. induction p as [|c p IH]; simpl; [reflexivity | exact IH]. Qed.

Lemma substring_split (s : string) :
  forall n, n <= String.length s ->
  s = substring 0 n s ++ substring n (String.length s - n) s.
Proof.
  induction s as [|c s IH]; intros [|n] Hn; simpl in *.
  - reflexivity.
  - lia.
  - now rewrite substring_whole.
  - f_equal. apply IH. lia.
Qed.

Lemma append_inv_head (s a b : string) : s ++ a = s ++ b -> a = b.
Proof.
  induction s as [|c s IH]; simpl; intros H; [exact H|].
  injection H as H. auto.
Qed.

(** Two ways of cutting one string: the shorter tail ends the longer one. *)
Lemma append_overlap (p : string) :
  forall q v w, p ++ v = q ++ w ->
  exists x, v = x ++ w \/ w = x ++ v.
Proof.
  induction p as [|c p IH]; intros q v w H; simpl in H.
  - exists q. now left.
  - destruct q as [|d q]; simpl in H.
    + exists (String c p). right. now rewrite <- H.
    + injection H as _ H. eauto.
Qed.

Lemma endsWith_spec (s suffix : string) :
  endsWith s suffix = true <-> exists stem, s = stem ++ suffix.
Proof.
  unfold endsWith. split.
  - destruct (Nat.ltb_spec (String.length s) (String.length suffix)) as [Hlt|Hge];
      [discriminate|].
    intros H. apply String.eqb_eq in H.
    exists (substring 0 (String.length s - String.length suffix) s).
    rewrite (substring_split s (String.length s - String.length suffix)) at 1 by lia.
    f_equal.
    replace (String.length s - (String.length s - String.length suffix))
      with (String.length suffix) by lia.
    exact H.
  - intros [stem ->]. rewrite length_append.
    destruct (Nat.ltb_spec (String.length stem + String.length suffix)
                (String.length suffix)) as [Hlt|Hge]; [lia|].
    replace (String.length stem + String.length suffix - String.length suffix)
      with (String.length stem) by lia.
    rewrite substring_after, substring_whole. apply String.eqb_refl.
Qed.

Lemma endsWith_code_suffix (path : string) :
  endsWith path ".js" || endsWith path ".cjs" || endsWith path ".mjs" = true
  <-> code_suffix path.
Proof.
  unfold code_suffix. rewrite !orb_true_iff, !endsWith_spec. split.
  - intros [[[x H]|[x H]]|[x H]]; exists x; auto.
  - intros [x [H|[H|H]]]; eauto.
Qed.

Lemma to_lower_append (a b : string) : to_lower (a ++ b) = to_lower a ++ to_lower b.
Proof. induction a as [|c a IH]; simpl; [reflexivity | now rewrite IH]. Qed.

(** ** Traces *)

Lemma trace_pair {A} (t : Trace) (o : Outcome A) : trace (t, o) = t.
Proof. reflexivity. Qed.

Lemma outcome_pair {A} (t : Trace) (o : Outcome A) : outcome (t, o) = o.
Proof. reflexivity. Qed.

(** ** The loaders and the probe, call by call *)

Section Calls.

Variable env : Env.

(** The probe makes one [access] call and never throws. *)
Lemma exists_run (path : string) :
  exists_ env path
  = ([Access path], Returns (probe env path)).
Proof. unfold exists_, probe. simpl. now destruct (fsp_access env path). Qed.

(** The Relaxed-Data Loader reads the one file it is given. *)
Lemma getSettingsFromJSON_trace (path : string) :
  trace (getSettingsFromJSON env path) = [ReadFile path].
Proof.
  unfold getSettingsFromJSON. simpl.
  destruct (fsp_readFile env path) as [e|data]; [reflexivity|].
  now destruct (JSON5_parse env data).
Qed.

(** The Dynamic Module Loader imports the one reference it computes. *)
Lemma tryRequire_trace (path : string) :
  trace (tryRequire env path) = [DynamicImport (relativePath env path)].
Proof.
  unfold tryRequire. simpl.
  destruct (dynamic_import env (relativePath env path)) as [e|module];
    [reflexivity|].
  now destruct (get_property module "default") as [v|[v|reason|]].
Qed.

Lemma bind_probe {B} (path : string) (k : bool -> Promise B) :
  bind (exists_ env path) k
  = let r := k (probe env path) in (Access path :: trace r, outcome r).
Proof. rewrite exists_run. simpl. now destruct (k (probe env path)). Qed.

End Calls.

(** ** The resolver *)

(** With an explicit path, the call is the probe followed, when the file is
    there, by the loader that the suffix selects. *)
Lemma getSettings_explicit (env : Env) (path : string) :
  getSettings env {| configFile := Some path |}
  = if probe env path
    then
      let loader :=
        if endsWith path ".js" || endsWith path ".cjs" || endsWith path ".mjs"
        then tryRequire env path
        else getSettingsFromJSON env path in
      (Access path :: trace loader, outcome loader)
    else
      ([Access path],
       Throws (NewError ("Failed to import '" ++ path ++ "': file not found"))).
Proof.
  unfold getSettings. simpl configFile. cbv beta iota.
  rewrite bind_probe. now destruct (probe env path).
Qed.

(** Without one, the call walks the three default locations. *)
Lemma getSettings_default (env : Env) :
  let rc := DEFAULT_GMRC_PATH env in
  let js := DEFAULT_GMRCJS_PATH env in
  let cjs := DEFAULT_GMRC_COMMONJS_PATH env in
  getSettings env {| configFile := None |}
  = if probe env rc
    then (Access rc :: trace (getSettingsFromJSON env rc),
          outcome (getSettingsFromJSON env rc))
    else if probe env js
    then (Access rc :: Access js :: trace (tryRequire env js),
          outcome (tryRequire env js))
    else if probe env cjs
    then (Access rc :: Access js :: Access cjs :: trace (tryRequire env cjs),
          outcome (tryRequire env cjs))
    else
      ([Access rc; Access js; Access cjs],
       Throws (NewError
         "No .gmrc file found; please run `graphile-migrate init` first.")).
Proof.
  intros rc js cjs. unfold getSettings. simpl configFile. cbv beta iota.
  fold rc js cjs. rewrite bind_probe.
  destruct (probe env rc); [reflexivity|]. cbv zeta. rewrite bind_probe.
  destruct (probe env js); [reflexivity|]. cbv zeta. rewrite bind_probe.
  now destruct (probe env cjs).
Qed.

(** C1: with no explicit [configFile] the default locations are probed in the
    order [.gmrc], [.gmrc.js], [.gmrc.cjs]; the first one that exists is the
    only one loaded, [.gmrc] by the Relaxed-Data Loader and the other two by
    the Dynamic Module Loader, and no later location is probed or loaded. *)
Theorem default_locations_precedence (env : Env) :
  let run := getSettings env {| configFile := None |} in
  let rc := process_cwd env ++ "/.gmrc" in
  let js := (process_cwd env ++ "/.gmrc") ++ ".js" in
  let cjs := (process_cwd env ++ "/.gmrc") ++ ".cjs" in
  (exists n, 1 <= n <= 3 /\ probes (trace run) = firstn n [rc; js; cjs]) /\
  (probe env rc = true ->
     probes (trace run) = [rc] /\
     loads (trace run) = [ReadFile rc] /\
     outcome run = outcome (getSettingsFromJSON env rc)) /\
  (probe env rc = false -> probe env js = true ->
     probes (trace run) = [rc; js] /\
     loads (trace run) = [DynamicImport (relativePath env js)] /\
     outcome run = outcome (tryRequire env js)) /\
  (probe env rc = false -> probe env js = false -> probe env cjs = true ->
     probes (trace run) = [rc; js; cjs] /\
     loads (trace run) = [DynamicImport (relativePath env cjs)] /\
     outcome run = outcome (tryRequire env cjs)).
Proof.
  intros run rc js cjs. subst run. rewrite getSettings_default.
  change (DEFAULT_GMRC_PATH env) with rc.
  change (DEFAULT_GMRCJS_PATH env) with js.
  change (DEFAULT_GMRC_COMMONJS_PATH env) with cjs.
  cbv zeta.
  destruct (probe env rc) eqn:Hrc; [|destruct (probe env js) eqn:Hjs;
    [|destruct (probe env cjs) eqn:Hcjs]];
    rewrite !trace_pair, !outcome_pair,
      ?getSettingsFromJSON_trace, ?tryRequire_trace; simpl.
  - split; [exists 1; split; [lia|reflexivity]|].
    repeat split; intros; try discriminate; reflexivity.
  - split; [exists 2; split; [lia|reflexivity]|].
    repeat split; intros; try discriminate; reflexivity.
  - split; [exists 3; split; [lia|reflexivity]|].
    repeat split; intros; try discriminate; reflexivity.
  - split; [exists 3; split; [lia|reflexivity]|].
    repeat split; intros; try discriminate; reflexivity.
Qed.

Lemma default_locations_precedence_witness :
  (probe full_project "/app/.gmrc" = true /\
   outcome (getSettings full_project {| configFile := None |})
   = outcome (getSettingsFromJSON full_project "/app/.gmrc")) /\
  (probe js_project "/app/.gmrc" = false /\
   probe js_project "/app/.gmrc.js" = true /\
   outcome (getSettings js_project {| configFile := None |})
   = outcome (tryRequire js_project "/app/.gmrc.js")) /\
  (probe cjs_project "/app/.gmrc" = false /\
   probe cjs_project "/app/.gmrc.js" = false /\
   probe cjs_project "/app/.gmrc.cjs" = true /\
   outcome (getSettings cjs_project {| configFile := None |})
   = outcome (tryRequire cjs_project "/app/.gmrc.cjs")).
Proof.
  split; [split; [reflexivity|] | split; [do 2 (split; [reflexivity|]) |
    do 3 (split; [reflexivity|])]].
  - destruct (default_locations_precedence full_project) as (_ & H & _).
    apply H. reflexivity.
  - destruct (default_locations_precedence js_project) as (_ & _ & H & _).
    apply H; reflexivity.
  - destruct (default_locations_precedence cjs_project) as (_ & _ & _ & H).
    apply H; reflexivity.
Defined.

(** C2: an explicit [configFile] that exists is loaded by the Dynamic Module
    Loader exactly when it ends in [.js], [.cjs] or [.mjs], and by the
    Relaxed-Data Loader otherwise, whatever the file holds. *)
Theorem explicit_loader_by_suffix (env : Env) (path : string) :
  probe env path = true ->
  let run := getSettings env {| configFile := Some path |} in
  (uses_dynamic (trace run) <-> code_suffix path) /\
  (uses_relaxed (trace run) <-> ~ code_suffix path) /\
  (code_suffix path ->
     loads (trace run) = [DynamicImport (relativePath env path)] /\
     outcome run = outcome (tryRequire env path)) /\
  (~ code_suffix path ->
     loads (trace run) = [ReadFile path] /\
     outcome run = outcome (getSettingsFromJSON env path)).
Proof.
  intros Hprobe run. subst run. rewrite getSettings_explicit, Hprobe.
  pose proof (endsWith_code_suffix path) as Hsuffix.
  destruct (endsWith path ".js" || endsWith path ".cjs" || endsWith path ".mjs");
    cbv zeta; rewrite !trace_pair, !outcome_pair,
      ?tryRequire_trace, ?getSettingsFromJSON_trace;
    unfold uses_dynamic, uses_relaxed; simpl.
  - assert (Hcode : code_suffix path) by now apply Hsuffix.
    repeat split; auto.
    + intros _. exists (relativePath env path). auto.
    + intros [p [H|[H|[]]]]; discriminate.
    + intros Hno. now destruct Hno.
    + now destruct H.
    + now destruct H.
  - assert (Hdata : ~ code_suffix path).
    { intros H. apply Hsuffix in H. discriminate. }
    repeat split; auto.
    + intros [p [H|[H|[]]]]; discriminate.
    + intros H. now destruct Hdata.
    + intros _. exists path. auto.
    + now destruct Hdata.
    + now destruct Hdata.
Qed.

Lemma explicit_loader_by_suffix_witness :
  let run := getSettings js_project {| configFile := Some "conf.mjs" |} in
  probe js_project "conf.mjs" = true /\
  (uses_dynamic (trace run) <-> code_suffix "conf.mjs").
Proof.
  split; [reflexivity|].
  apply (explicit_loader_by_suffix js_project "conf.mjs"). reflexivity.
Defined.

(** C3: an explicit [configFile] that does not exist fails at once with
    [Failed to import '<configFile>': file not found], whatever its suffix,
    and no loader is called. *)
Theorem explicit_not_found (env : Env) (path : string) :
  probe env path = false ->
  let run := getSettings env {| configFile := Some path |} in
  run = ([Access path],
         Throws (NewError ("Failed to import '" ++ path ++ "': file not found"))) /\
  loads (trace run) = [] /\
  ~ uses_dynamic (trace run) /\ ~ uses_relaxed (trace run).
Proof.
  intros Hprobe run. subst run. rewrite getSettings_explicit, Hprobe.
  unfold uses_dynamic, uses_relaxed. simpl. repeat split.
  - intros [p [H|[]]]. discriminate.
  - intros [p [H|[]]]. discriminate.
Qed.

Lemma explicit_not_found_witness :
  probe js_project "nothere.js" = false /\
  getSettings js_project {| configFile := Some "nothere.js" |}
  = ([Access "nothere.js"],
     Throws (NewError "Failed to import 'nothere.js': file not found")) /\
  probe js_project "nothere.json5" = false /\
  getSettings js_project {| configFile := Some "nothere.json5" |}
  = ([Access "nothere.json5"],
     Throws (NewError "Failed to import 'nothere.json5': file not found")).
Proof.
  split; [reflexivity|]. split.
  - apply (explicit_not_found js_project "nothere.js"). reflexivity.
  - split; [reflexivity|].
    apply (explicit_not_found js_project "nothere.json5"). reflexivity.
Defined.

(** C8, as the code has it: with no explicit [configFile] and none of the three
    default locations present, the call fails, after probing all three and
    loading nothing, with the message
    [No .gmrc file found; please run `graphile-migrate init` first.] *)
Theorem no_default_found (env : Env) :
  probe env (DEFAULT_GMRC_PATH env) = false ->
  probe env (DEFAULT_GMRCJS_PATH env) = false ->
  probe env (DEFAULT_GMRC_COMMONJS_PATH env) = false ->
  getSettings env {| configFile := None |}
  = ([Access (process_cwd env ++ "/.gmrc");
      Access ((process_cwd env ++ "/.gmrc") ++ ".js");
      Access ((process_cwd env ++ "/.gmrc") ++ ".cjs")],
     Throws (NewError
       "No .gmrc file found; please run `graphile-migrate init` first.")).
Proof.
  intros Hrc Hjs Hcjs. rewrite getSettings_default. cbv zeta.
  now rewrite Hrc, Hjs, Hcjs.
Qed.

Lemma no_default_found_witness :
  getSettings empty_project {| configFile := None |}
  = ([Access "/app/.gmrc"; Access "/app/.gmrc.js"; Access "/app/.gmrc.cjs"],
     Throws (NewError
       "No .gmrc file found; please run `graphile-migrate init` first.")).
Proof. apply (no_default_found empty_project); reflexivity. Defined.

(** C8, as the specification words it, fails: the message of the code names
    the command [graphile-migrate init]. *)
Lemma no_default_found_message_differs :
  probe empty_project (DEFAULT_GMRC_PATH empty_project) = false /\
  probe empty_project (DEFAULT_GMRCJS_PATH empty_project) = false /\
  probe empty_project (DEFAULT_GMRC_COMMONJS_PATH empty_project) = false /\
  outcome (getSettings empty_project {| configFile := None |})
  <> Throws (NewError "No .gmrc file found; please run the init command first.").
Proof. repeat split. discriminate. Qed.

(** What a call on an explicit path did: one probe, then nothing more and a
    failure, or one loader on that path. *)
Lemma explicit_shape (env : Env) (path : string) :
  let run := getSettings env {| configFile := Some path |} in
  probes (trace run) = [path] /\
  ((loads (trace run) = [] /\ fails run)
   \/ (loads (trace run) = [ReadFile path]
       /\ outcome run = outcome (getSettingsFromJSON env path))
   \/ (loads (trace run) = [DynamicImport (relativePath env path)]
       /\ outcome run = outcome (tryRequire env path))).
Proof.
  intros run. subst run. rewrite getSettings_explicit.
  destruct (probe env path).
  - destruct (endsWith path ".js" || endsWith path ".cjs" || endsWith path ".mjs");
      cbv zeta; rewrite !trace_pair, !outcome_pair,
        ?tryRequire_trace, ?getSettingsFromJSON_trace; simpl; auto.
  - simpl. split; [reflexivity|]. left. split; [reflexivity|].
    unfold fails, is_error. simpl. eauto.
Qed.

(** What a call without an explicit path did. *)
Lemma default_shape (env : Env) :
  let run := getSettings env {| configFile := None |} in
  let rc := DEFAULT_GMRC_PATH env in
  let js := DEFAULT_GMRCJS_PATH env in
  let cjs := DEFAULT_GMRC_COMMONJS_PATH env in
  (loads (trace run) = [] /\ fails run)
  \/ (probe env rc = true /\ loads (trace run) = [ReadFile rc]
      /\ outcome run = outcome (getSettingsFromJSON env rc))
  \/ (probe env rc = false /\ probe env js = true
      /\ loads (trace run) = [DynamicImport (relativePath env js)]
      /\ outcome run = outcome (tryRequire env js))
  \/ (probe env rc = false /\ probe env js = false /\ probe env cjs = true
      /\ loads (trace run) = [DynamicImport (relativePath env cjs)]
      /\ outcome run = outcome (tryRequire env cjs)).
Proof.
  intros run rc js cjs. subst run. rewrite getSettings_default.
  fold rc js cjs. cbv zeta.
  destruct (probe env rc); [|destruct (probe env js); [|destruct (probe env cjs)]];
    rewrite !trace_pair, ?outcome_pair,
      ?tryRequire_trace, ?getSettingsFromJSON_trace; simpl.
  - right. left. auto.
  - right. right. left. auto.
  - right. right. right. auto.
  - left. split; [reflexivity|]. unfold fails, is_error. simpl. eauto.
Qed.



(** ** The Relaxed-Data Loader *)

(** C6: [getSettingsFromJSON] fails with [Failed to read '<path>': <cause>]
    when the file cannot be read, with [Failed to parse '<path>': <cause>]
    when its text does not parse, and otherwise returns the parsed value as
    it is; a read failure and a parse failure never carry the same message. *)
Theorem getSettingsFromJSON_outcomes (env : Env) (path : string) :
  (forall e, fsp_readFile env path = inl e ->
     getSettingsFromJSON env path
     = ([ReadFile path],
        Throws (NewError ("Failed to read '" ++ path ++ "': " ++ cause_message e)))) /\
  (forall data e, fsp_readFile env path = inr data -> JSON5_parse env data = inl e ->
     getSettingsFromJSON env path
     = ([ReadFile path],
        Throws (NewError ("Failed to parse '" ++ path ++ "': " ++ cause_message e)))) /\
  (forall data v, fsp_readFile env path = inr data -> JSON5_parse env data = inr v ->
     getSettingsFromJSON env path = ([ReadFile path], Returns v)) /\
  (forall env' path' e data e',
     fsp_readFile env path = inl e ->
     fsp_readFile env' path' = inr data -> JSON5_parse env' data = inl e' ->
     outcome (getSettingsFromJSON env path)
     <> outcome (getSettingsFromJSON env' path')).
Proof.
  unfold getSettingsFromJSON. simpl. repeat split.
  - intros e ->. reflexivity.
  - intros data e -> ->. reflexivity.
  - intros data v -> ->. reflexivity.
  - intros env' path' e data e' -> -> ->. simpl. discriminate.
Qed.

Lemma getSettingsFromJSON_outcomes_witness :
  getSettingsFromJSON js_project "absent.json5"
  = ([ReadFile "absent.json5"],
     Throws (NewError
       "Failed to read 'absent.json5': ENOENT: no such file or directory")) /\
  getSettingsFromJSON js_project "conf.mjs"
  = ([ReadFile "conf.mjs"],
     Throws (NewError "Failed to parse 'conf.mjs': JSON5: invalid end of input")) /\
  getSettingsFromJSON js_project "conf.json5"
  = ([ReadFile "conf.json5"], Returns (JsObject [("rc", JsNumber double_1)])).
Proof.
  destruct (getSettingsFromJSON_outcomes js_project "absent.json5") as (Hread & _).
  destruct (getSettingsFromJSON_outcomes js_project "conf.mjs") as (_ & Hparse & _).
  destruct (getSettingsFromJSON_outcomes js_project "conf.json5") as (_ & _ & Hok & _).
  split; [|split].
  - apply (Hread ENOENT). reflexivity.
  - apply (Hparse "export const a = 1" JSON5_SyntaxError); reflexivity.
  - apply (Hok "{ rc: 1 }"); reflexivity.
Defined.

(** ** The Dynamic Module Loader *)

(** C4, as the code has it: for a module whose [default] export is missing,
    or is [undefined], the loader does not fail but returns [undefined]; when
    the import itself throws (a syntax error, a runtime error while the module
    is evaluated, a file that is not there), it fails with the
    [Failed to import] message. *)
Theorem tryRequire_outcomes (env : Env) (path : string) :
  let ref := pathToFileURL_href env (path_resolve env (process_cwd env) path) in
  (forall m, dynamic_import env ref = inr m ->
     assoc m "default" = None \/ assoc m "default" = Some (Plain JsUndefined) ->
     tryRequire env path = ([DynamicImport ref], Returns JsUndefined)) /\
  (forall e, dynamic_import env ref = inl e ->
     exists cause,
       tryRequire env path
       = ([DynamicImport ref],
          Throws (NewError ("Failed to import '" ++ ref ++ "'; error:"
                            ++ String LF "    " ++ cause)))).
Proof.
  intros ref. unfold tryRequire, get_property.
  change (relativePath env path) with ref. simpl. split.
  - intros m -> [-> | ->]; reflexivity.
  - intros e ->. exists (cause_text e). reflexivity.
Qed.

Lemma tryRequire_outcomes_witness :
  tryRequire js_project "conf.mjs"
  = ([DynamicImport "file:///app/conf.mjs"], Returns JsUndefined).
Proof.
  destruct (tryRequire_outcomes js_project "conf.mjs") as (H & _).
  apply (H [("a", Plain (JsNumber double_1))]); [reflexivity|].
  left. reflexivity.
Defined.

(** C4, as the specification words it, fails: importing a module that has no
    [default] export is not an error. *)
Lemma missing_default_is_not_an_error :
  dynamic_import js_project "file:///app/conf.mjs"
  = inr [("a", Plain (JsNumber double_1))] /\
  get_property [("a", Plain (JsNumber double_1))] "default" = Plain JsUndefined /\
  ~ fails (tryRequire js_project "conf.mjs").
Proof.
  split; [reflexivity|]. split; [reflexivity|].
  intros [e He]. discriminate.
Qed.

(** Re-indenting puts four spaces behind every line feed. *)
Lemma replace_newlines_indented (s : string) :
  newlines_indented (replace_newlines s) = true.
Proof.
  induction s as [|c s IH]; [reflexivity|].
  simpl. destruct (Ascii.eqb c LF) eqn:Hc.
  - simpl. rewrite IH. now destruct (replace_newlines s).
  - simpl. now rewrite Hc, IH.
Qed.

Lemma split_lines_cons (s : string) : exists l ls, split_lines s = l :: ls.
Proof.
  induction s as [|c s (l & ls & IH)]; simpl; [eauto|].
  destruct (Ascii.eqb c LF); [eauto|]. rewrite IH. eauto.
Qed.

(** Re-indenting keeps every line: the first as it is, each later one behind
    four spaces. *)
Lemma replace_newlines_lines (s : string) :
  split_lines (replace_newlines s) = indent_tail (split_lines s).
Proof.
  induction s as [|c s IH]; [reflexivity|].
  destruct (split_lines_cons s) as (l & ls & Hs).
  simpl. destruct (Ascii.eqb c LF) eqn:Hc.
  - simpl. rewrite IH, Hs. reflexivity.
  - simpl. rewrite Hc, IH, Hs. reflexivity.
Qed.

(** C7, as the code has it: the loader imports the [file://] reference of the
    path resolved against the working directory, and nothing else; when the
    import throws, the error names that reference and embeds the stack of the
    cause, every line kept and every line feed followed by four spaces, if the
    cause is an [Error] with a non-empty stack, and otherwise [String(cause)]
    with its line feeds as they are. *)
Theorem tryRequire_reference_and_cause (env : Env) (path : string) :
  let ref := pathToFileURL_href env (path_resolve env (process_cwd env) path) in
  trace (tryRequire env path) = [DynamicImport ref] /\
  forall e, dynamic_import env ref = inl e ->
    outcome (tryRequire env path)
    = Throws (NewError ("Failed to import '" ++ ref ++ "'; error:"
                        ++ String LF "    " ++ cause_text e)) /\
    (forall name message stack,
       e = ErrorObject name message (Some stack) -> stack <> EmptyString ->
       cause_text e = replace_newlines stack /\
       newlines_indented (cause_text e) = true /\
       split_lines (cause_text e) = indent_tail (split_lines stack)) /\
    (forall name message,
       e = ErrorObject name message None
       \/ e = ErrorObject name message (Some EmptyString) ->
       cause_text e = String_ e) /\
    (forall s, e = NonError s -> cause_text e = s).
Proof.
  intros ref. split; [apply tryRequire_trace|].
  intros e Himport. unfold tryRequire.
  change (relativePath env path) with ref. simpl. rewrite Himport.
  split; [reflexivity|]. repeat split.
  - subst e. simpl. destruct stack; [contradiction|reflexivity].
  - subst e. simpl. destruct stack; [contradiction|].
    apply replace_newlines_indented.
  - subst e. simpl. destruct stack; [contradiction|].
    apply replace_newlines_lines.
  - intros name message [->| ->]; reflexivity.
  - intros s ->. reflexivity.
Qed.

Lemma tryRequire_reference_and_cause_witness :
  outcome (tryRequire js_project "broken.js")
  = Throws (NewError
      ("Failed to import 'file:///app/broken.js'; error:" ++ String LF "    "
       ++ "SyntaxError: Unexpected token" ++ String LF "        at conf.js:1")).
Proof.
  destruct (tryRequire_reference_and_cause js_project "broken.js") as (_ & H).
  apply (H (ErrorObject "SyntaxError" "Unexpected token"
              (Some ("SyntaxError: Unexpected token"
                     ++ String LF "    at conf.js:1")))).
  reflexivity.
Defined.

(** C7, as the specification words it, fails: a cause that is not an [Error]
    is embedded with its line feeds not re-indented. *)
Lemma thrown_string_is_not_reindented :
  dynamic_import js_project "file:///app/throws.js"
  = inl (NonError ("first" ++ String LF "second")) /\
  ~ (exists cause,
       outcome (tryRequire js_project "throws.js")
       = Throws (NewError (import_failure "file:///app/throws.js" cause))
       /\ newlines_indented cause = true).
Proof.
  split; [reflexivity|].
  intros (cause & Hout & Hind).
  change (outcome (tryRequire js_project "throws.js"))
    with (Throws (A := JsValue) (NewError
            (import_failure "file:///app/throws.js"
               ("first" ++ String LF "second")))) in Hout.
  injection Hout as Hout. unfold import_failure in Hout.
  repeat apply append_inv_head in Hout.
  subst cause. discriminate.
Qed.

(** ** Case of the suffix *)

(** A suffix spelled with an upper-case letter is none of the code suffixes. *)
Lemma case_variant_not_code (stem v suffix : string) :
  In suffix [".js"; ".cjs"; ".mjs"] -> case_variant v suffix ->
  ~ code_suffix (stem ++ v).
Proof.
  intros Hin [Hlow Hne] [q Hq].
  assert (Hcut : exists x w, In w [".js"; ".cjs"; ".mjs"]
                             /\ (v = x ++ w \/ w = x ++ v)).
  { destruct Hq as [Hq|[Hq|Hq]]; destruct (append_overlap _ _ _ _ Hq) as [x Hx];
      exists x; eexists; (split; [|exact Hx]); simpl; auto. }
  destruct Hcut as (x & w & Hw & [Hv|Hv]).
  - subst v. rewrite to_lower_append in Hlow.
    simpl in Hin, Hw.
    destruct Hw as [<-|[<-|[<-|[]]]]; destruct Hin as [<-|[<-|[<-|[]]]];
      peel 5 x; try (now apply Hne); try discriminate.
  - simpl in Hin, Hw.
    destruct Hw as [<-|[<-|[<-|[]]]]; destruct Hin as [<-|[<-|[<-|[]]]];
      peel 5 x; try (injection Hv as <-); try subst v;
      try discriminate; try (now apply Hne).
Qed.

(** C9: the suffix test is case-sensitive: an explicit [configFile] that
    exists and ends in an upper- or mixed-case spelling of [.js], [.cjs] or
    [.mjs] is taken for data and loaded by the Relaxed-Data Loader. *)
Theorem suffix_is_case_sensitive (env : Env) (stem v suffix : string) :
  In suffix [".js"; ".cjs"; ".mjs"] -> case_variant v suffix ->
  probe env (stem ++ v) = true ->
  let path := stem ++ v in
  let run := getSettings env {| configFile := Some path |} in
  endsWith path ".js" || endsWith path ".cjs" || endsWith path ".mjs" = false /\
  run = (Access path :: trace (getSettingsFromJSON env path),
         outcome (getSettingsFromJSON env path)) /\
  loads (trace run) = [ReadFile path] /\
  ~ uses_dynamic (trace run).
Proof.
  intros Hin Hvar Hprobe path run.
  pose proof (case_variant_not_code stem v suffix Hin Hvar) as Hdata.
  fold path in Hdata, Hprobe.
  assert (Hends : endsWith path ".js" || endsWith path ".cjs"
                  || endsWith path ".mjs" = false).
  { apply not_true_is_false. intros H. now apply endsWith_code_suffix in H. }
  assert (Hrun : run = (Access path :: trace (getSettingsFromJSON env path),
                        outcome (getSettingsFromJSON env path))).
  { subst run. rewrite getSettings_explicit, Hprobe, Hends. reflexivity. }
  split; [exact Hends|]. split; [exact Hrun|].
  rewrite Hrun, trace_pair, getSettingsFromJSON_trace. split; [reflexivity|].
  intros [ref [H|[H|[]]]]; discriminate.
Qed.

Lemma suffix_is_case_sensitive_witness :
  case_variant ".JS" ".js" /\
  probe js_project "conf.JS" = true /\
  getSettings js_project {| configFile := Some "conf.JS" |}
  = ([Access "conf.JS"; ReadFile "conf.JS"],
     Returns (JsObject [("rc", JsNumber double_1)])).
Proof.
  assert (Hvar : case_variant ".JS" ".js").
  { split; [reflexivity | discriminate]. }
  split; [exact Hvar|]. split; [reflexivity|].
  apply (suffix_is_case_sensitive js_project "conf" ".JS" ".js");
    [simpl; auto | exact Hvar | reflexivity].
Defined.

(** ** The database name *)

(** C10: [getDatabaseName] throws
    [Could not determine database name from connection string.] when the
    parsed [database] field is [undefined], [null] or the empty string, and
    returns the field as it is when it is a non-empty string. *)
Theorem getDatabaseName_outcomes (env : Env) (connectionString : string)
    (parsed : ConnectionOptions) :
  pg_parse env connectionString = inr parsed ->
  (database parsed = FieldUndefined \/ database parsed = FieldNull
   \/ database parsed = FieldString EmptyString ->
   getDatabaseName env connectionString
   = Throws (NewError "Could not determine database name from connection string.")) /\
  (forall s, database parsed = FieldString s -> s <> EmptyString ->
   getDatabaseName env connectionString = Returns s).
Proof.
  intros Hparse. unfold getDatabaseName. rewrite Hparse. cbv zeta. split.
  - intros [->|[->| ->]]; reflexivity.
  - intros s -> Hs. destruct s; [contradiction|reflexivity].
Qed.

Lemma getDatabaseName_outcomes_witness :
  getDatabaseName js_project "postgres://localhost/app_db" = Returns "app_db" /\
  getDatabaseName js_project "postgres://localhost/"
  = Throws (NewError "Could not determine database name from connection string.") /\
  getDatabaseName js_project "postgres://localhost"
  = Throws (NewError "Could not determine database name from connection string.").
Proof.
  split; [|split].
  - apply (getDatabaseName_outcomes js_project "postgres://localhost/app_db"
             {| database := FieldString "app_db" |});
      [reflexivity | reflexivity | discriminate].
  - apply (getDatabaseName_outcomes js_project "postgres://localhost/"
             {| database := FieldString EmptyString |}); [reflexivity | auto].
  - apply (getDatabaseName_outcomes js_project "postgres://localhost"
             {| database := FieldNull |}); [reflexivity | auto].
Defined.

(** ** Standard input *)

Lemma append_empty_r (s : string) : s ++ EmptyString = s.
Proof. induction s as [|c s IH]; simpl; [reflexivity | now rewrite IH]. Qed.

Lemma append_assoc (a b c : string) : (a ++ b) ++ c = a ++ (b ++ c).
Proof. induction a as [|x a IH]; simpl; [reflexivity | now rewrite IH]. Qed.

(** The reading loop appends the chunks, in order, to what was read before. *)
Lemma read_loop_data (chunks : list string) :
  forall before,
    fold_left (fun data chunk => data ++ chunk) chunks before
    = before ++ String.concat EmptyString chunks.
Proof.
  induction chunks as [|x xs IH]; intros before; simpl.
  - now rewrite append_empty_r.
  - rewrite IH, append_assoc. destruct xs; [now rewrite append_empty_r|reflexivity].
Qed.

(** While only text arrives the promise stays pending and [data] grows. *)
Lemma listener_readable (pre : list StdinEvent) :
  Forall is_readable pre ->
  forall before,
    fold_left listener pre {| data := before; settled := None |}
    = {| data := before ++ received pre; settled := None |}.
Proof.
  induction 1 as [|ev pre [chunks ->] _ IH]; intros before; simpl.
  - now rewrite append_empty_r.
  - unfold read_loop. simpl. rewrite read_loop_data, IH, append_assoc. reflexivity.
Qed.

(** A settled promise stays as it is, whatever the stream does next. *)
Lemma listener_settled (events : list StdinEvent) :
  forall st o, settled st = Some o ->
  settled (fold_left listener events st) = Some o.
Proof.
  induction events as [|ev events IH]; intros st o Hst; simpl; [exact Hst|].
  apply IH. destruct ev as [chunks| |e]; simpl; unfold resolve, reject;
    now rewrite ?Hst.
Qed.

(** X1: [readStdin] resolves, at the first ['end'], with all the text read until
    then, in order and however it was cut into chunks and events; what the
    stream emits afterwards changes nothing. *)
Theorem readStdin_end (pre post : list StdinEvent) :
  Forall is_readable pre ->
  readStdin (pre ++ OnEnd :: post) = Some (Returns (received pre)).
Proof.
  intros Hpre. unfold readStdin.
  rewrite fold_left_app, (listener_readable pre Hpre). simpl.
  apply listener_settled. reflexivity.
Qed.

Lemma readStdin_end_witness :
  readStdin (hello_events ++ OnEnd :: [OnReadable ["late"]; OnEnd])
  = Some (Returns "hello world").
Proof.
  apply (readStdin_end hello_events).
  repeat constructor; eexists; reflexivity.
Defined.

(** X2: An ['error'] that comes before any ['end'] rejects the promise with the
    error as it is; the text read so far is dropped and a later ['end'] does
    not resolve it. *)
Theorem readStdin_error (pre post : list StdinEvent) (e : Caught) :
  Forall is_readable pre ->
  readStdin (pre ++ OnError e :: post) = Some (Throws (Uncaught e)).
Proof.
  intros Hpre. unfold readStdin.
  rewrite fold_left_app, (listener_readable pre Hpre). simpl.
  apply listener_settled. reflexivity.
Qed.

Lemma readStdin_error_witness :
  readStdin (hello_events ++ OnError ENOENT :: [OnEnd])
  = Some (Throws (Uncaught ENOENT)).
Proof.
  apply (readStdin_error hello_events).
  repeat constructor; eexists; reflexivity.
Defined.

(** X3: The promise is pending exactly as long as the stream has emitted neither
    ['end'] nor ['error']: text alone, however much, never settles it. *)
Theorem readStdin_pending (events : list StdinEvent) :
  readStdin events = None <-> Forall is_readable events.
Proof.
  split.
  - unfold readStdin. generalize EmptyString as before.
    induction events as [|ev events IH]; intros before H; [constructor|].
    destruct ev as [chunks| |e]; simpl in H.
    + constructor; [now exists chunks | exact (IH _ H)].
    + rewrite (listener_settled events _ (Returns before)) in H by reflexivity.
      discriminate.
    + rewrite (listener_settled events _ (Throws (Uncaught e))) in H
        by reflexivity.
      discriminate.
  - intros H. unfold readStdin. now rewrite (listener_readable events H).
Qed.

(** ** The resolver, over all its runs *)

Lemma default_rc_is_data (cwd : string) : ~ code_suffix (cwd ++ "/.gmrc").
Proof.
  intros [q Hq].
  assert (Hcut : exists x w, In w [".js"; ".cjs"; ".mjs"]
                             /\ ("/.gmrc" = x ++ w \/ w = x ++ "/.gmrc")).
  { destruct Hq as [Hq|[Hq|Hq]]; destruct (append_overlap _ _ _ _ Hq) as [x Hx];
      exists x; eexists; (split; [|exact Hx]); simpl; auto. }
  destruct Hcut as (x & w & Hw & Hx). simpl in Hw.
  destruct Hw as [<-|[<-|[<-|[]]]]; destruct Hx as [Hx|Hx];
    peel 7 x; discriminate.
Qed.

Lemma default_js_is_code (cwd : string) : code_suffix ((cwd ++ "/.gmrc") ++ ".js").
Proof. exists (cwd ++ "/.gmrc"). auto. Qed.

Lemma default_cjs_is_code (cwd : string) : code_suffix ((cwd ++ "/.gmrc") ++ ".cjs").
Proof. exists (cwd ++ "/.gmrc"). auto. Qed.

(** X4: Every run is a row of probes that found nothing, followed either by
    nothing more, and then the call fails, or by one probe that found its file
    and, right after it, the one load of that same file, with which the run
    ends.  No file is read or imported unless its own probe has just
    succeeded. *)
Theorem probes_then_one_load (env : Env) (options : Options) :
  let run := getSettings env options in
  exists misses, Forall (failed_probe env) misses /\
    ((trace run = misses /\ fails run)
     \/ exists path load,
          trace run = (misses ++ [Access path; load])%list /\
          probe env path = true /\
          (load = ReadFile path \/ load = DynamicImport (relativePath env path))).
Proof.
  intros run. subst run.
  assert (Hmiss : forall p, probe env p = false -> failed_probe env (Access p)).
  { intros p Hp. now exists p. }
  destruct options as [[path|]].
  - rewrite getSettings_explicit. destruct (probe env path) eqn:Hp.
    + exists []. split; [constructor|]. right. exists path.
      destruct (endsWith path ".js" || endsWith path ".cjs" || endsWith path ".mjs");
        cbv zeta; rewrite trace_pair, ?tryRequire_trace, ?getSettingsFromJSON_trace;
        eexists; simpl; eauto.
    + exists [Access path]. split; [auto|]. left. split; [reflexivity|].
      unfold fails, is_error. simpl. eauto.
  - rewrite getSettings_default. cbv zeta.
    destruct (probe env (DEFAULT_GMRC_PATH env)) eqn:Hrc;
      [|destruct (probe env (DEFAULT_GMRCJS_PATH env)) eqn:Hjs;
        [|destruct (probe env (DEFAULT_GMRC_COMMONJS_PATH env)) eqn:Hcjs]];
      rewrite trace_pair, ?tryRequire_trace, ?getSettingsFromJSON_trace.
    + exists []. split; [constructor|]. right.
      exists (DEFAULT_GMRC_PATH env). eexists. simpl. eauto.
    + exists [Access (DEFAULT_GMRC_PATH env)]. split; [auto|]. right.
      exists (DEFAULT_GMRCJS_PATH env). eexists. simpl. eauto.
    + exists [Access (DEFAULT_GMRC_PATH env); Access (DEFAULT_GMRCJS_PATH env)].
      split; [auto|]. right.
      exists (DEFAULT_GMRC_COMMONJS_PATH env). eexists. simpl. eauto.
    + exists [Access (DEFAULT_GMRC_PATH env); Access (DEFAULT_GMRCJS_PATH env);
              Access (DEFAULT_GMRC_COMMONJS_PATH env)].
      split; [auto|]. left. split; [reflexivity|].
      unfold fails, is_error. simpl. eauto.
Qed.

(** X5: On every run, with or without an explicit path, the loader agrees with
    the suffix: a file that is read does not end in [.js], [.cjs] or [.mjs],
    and a module that is imported is the reference of a probed path that
    does. *)
Theorem loader_matches_suffix (env : Env) (options : Options) :
  let run := getSettings env options in
  (forall path, In (ReadFile path) (trace run) -> ~ code_suffix path) /\
  (forall ref, In (DynamicImport ref) (trace run) ->
     exists path, ref = relativePath env path /\ code_suffix path
                  /\ In (Access path) (trace run)).
Proof.
  intros run. subst run.
  pose proof (default_rc_is_data (process_cwd env)) as Hrc.
  pose proof (default_js_is_code (process_cwd env)) as Hjs.
  pose proof (default_cjs_is_code (process_cwd env)) as Hcjs.
  fold (DEFAULT_GMRC_PATH env) in Hrc, Hjs, Hcjs.
  fold (DEFAULT_GMRCJS_PATH env) in Hjs.
  fold (DEFAULT_GMRC_COMMONJS_PATH env) in Hcjs.
  destruct options as [[path|]].
  - rewrite getSettings_explicit. destruct (probe env path).
    + pose proof (endsWith_code_suffix path) as Hsuffix.
      destruct (endsWith path ".js" || endsWith path ".cjs" || endsWith path ".mjs");
        cbv zeta; rewrite trace_pair, ?tryRequire_trace, ?getSettingsFromJSON_trace;
        simpl; split.
      * intros p [H|[H|[]]]; discriminate.
      * intros ref [H|[H|[]]]; [discriminate|]. injection H as <-.
        exists path. repeat split; auto. now apply Hsuffix.
      * intros p [H|[H|[]]]; [discriminate|]. injection H as <-.
        intros Hcode. apply Hsuffix in Hcode. discriminate.
      * intros ref [H|[H|[]]]; discriminate.
    + simpl. split; [intros p [H|[]] | intros p [H|[]]]; discriminate.
  - rewrite getSettings_default. cbv zeta.
    destruct (probe env (DEFAULT_GMRC_PATH env));
      [|destruct (probe env (DEFAULT_GMRCJS_PATH env));
        [|destruct (probe env (DEFAULT_GMRC_COMMONJS_PATH env))]];
      rewrite trace_pair, ?tryRequire_trace, ?getSettingsFromJSON_trace;
      simpl; split.
    + intros p [H|[H|[]]]; [discriminate|]. now injection H as <-.
    + intros ref [H|[H|[]]]; discriminate.
    + intros p [H|[H|[H|[]]]]; discriminate.
    + intros ref [H|[H|[H|[]]]]; try discriminate. injection H as <-.
      exists (DEFAULT_GMRCJS_PATH env). auto.
    + intros p [H|[H|[H|[H|[]]]]]; discriminate.
    + intros ref [H|[H|[H|[H|[]]]]]; try discriminate. injection H as <-.
      exists (DEFAULT_GMRC_COMMONJS_PATH env). auto 6.
    + intros p [H|[H|[H|[]]]]; discriminate.
    + intros ref [H|[H|[H|[]]]]; discriminate.
Qed.

(** X6: Naming as [configFile] the default location that would be chosen anyway
    changes neither what is loaded nor the result: the suffix rule picks, for
    each default location, the loader that the default chain uses for it. *)
Theorem explicit_default_agrees (env : Env) :
  let rc := process_cwd env ++ "/.gmrc" in
  let js := (process_cwd env ++ "/.gmrc") ++ ".js" in
  let cjs := (process_cwd env ++ "/.gmrc") ++ ".cjs" in
  let by_default := getSettings env {| configFile := None |} in
  forall path,
    (path = rc /\ probe env rc = true)
    \/ (path = js /\ probe env rc = false /\ probe env js = true)
    \/ (path = cjs /\ probe env rc = false /\ probe env js = false
        /\ probe env cjs = true) ->
    let named := getSettings env {| configFile := Some path |} in
    outcome named = outcome by_default /\
    loads (trace named) = loads (trace by_default).
Proof.
  intros rc js cjs by_default path Hpath named. subst named by_default.
  pose proof (default_rc_is_data (process_cwd env)) as Hrc.
  pose proof (default_js_is_code (process_cwd env)) as Hjs.
  pose proof (default_cjs_is_code (process_cwd env)) as Hcjs.
  fold rc in Hrc. fold js in Hjs. fold cjs in Hcjs.
  rewrite getSettings_explicit, getSettings_default.
  change (DEFAULT_GMRC_PATH env) with rc.
  change (DEFAULT_GMRCJS_PATH env) with js.
  change (DEFAULT_GMRC_COMMONJS_PATH env) with cjs.
  destruct Hpath as [(-> & H1)|[(-> & H1 & H2)|(-> & H1 & H2 & H3)]].
  - rewrite H1.
    destruct (endsWith rc ".js" || endsWith rc ".cjs" || endsWith rc ".mjs") eqn:E.
    + apply endsWith_code_suffix in E. contradiction.
    + split; reflexivity.
  - rewrite H1, H2. apply endsWith_code_suffix in Hjs. rewrite Hjs.
    split; reflexivity.
  - rewrite H1, H2, H3. apply endsWith_code_suffix in Hcjs. rewrite Hcjs.
    split; reflexivity.
Qed.

Lemma explicit_default_agrees_witness :
  outcome (getSettings js_project {| configFile := Some "/app/.gmrc.js" |})
  = outcome (getSettings js_project {| configFile := None |}) /\
  outcome (getSettings full_project {| configFile := Some "/app/.gmrc" |})
  = outcome (getSettings full_project {| configFile := None |}).
Proof.
  split.
  - apply (explicit_default_agrees js_project "/app/.gmrc.js").
    right. left. repeat split; reflexivity.
  - apply (explicit_default_agrees full_project "/app/.gmrc").
    left. split; reflexivity.
Defined.

Lemma imports_are_loads (ref : string) (t : Trace) :
  In (DynamicImport ref) t -> In (DynamicImport ref) (loads t).
Proof.
  induction t as [|[p|p|r] t IH]; simpl; intros H.
  - exact H.
  - destruct H as [H|H]; [discriminate | auto].
  - destruct H as [H|H]; [discriminate | auto].
  - destruct H as [H|H]; auto.
Qed.

(** X7: Whenever [getSettings] imports a module whose [default] export is a
    thenable, the call ends as the thenable does: it returns the value that the
    thenable is fulfilled with, it is rejected with the thenable's own reason,
    as it is and not inside a [Failed to import] error, and it never settles
    if the thenable never does. *)
Theorem thenable_default_is_adopted (env : Env) (options : Options)
    (ref : string) (m : ModuleNamespace) (settles : Settlement) :
  let run := getSettings env options in
  In (DynamicImport ref) (trace run) ->
  dynamic_import env ref = inr m ->
  assoc m "default" = Some (Thenable settles) ->
  outcome run
  = match settles with
    | FulfilsWith v => Returns v
    | RejectsWith reason => Throws (Uncaught reason)
    | NeverSettles => Pending
    end.
Proof.
  intros run Hin Himport Hdefault. apply imports_are_loads in Hin.
  assert (Hrun : exists path, loads (trace run)
                              = [DynamicImport (relativePath env path)]
                              /\ outcome run = outcome (tryRequire env path)).
  { destruct options as [[path|]].
    - destruct (explicit_shape env path) as (_ & Hshape). fold run in Hshape.
      destruct Hshape as [(Hl & _)|[(Hl & _)|H]]; [| |eauto];
        rewrite Hl in Hin; simpl in Hin; intuition discriminate.
    - pose proof (default_shape env) as Hshape. cbv zeta in Hshape.
      fold run in Hshape.
      destruct Hshape as [(Hl & _)|[(_ & Hl & _)|[(_ & _ & H)|(_ & _ & _ & H)]]];
        [| |eauto ..]; rewrite Hl in Hin; simpl in Hin; intuition discriminate. }
  destruct Hrun as (path & Hl & ->). rewrite Hl in Hin.
  destruct Hin as [Hin|[]]. injection Hin as Href.
  unfold tryRequire. simpl. rewrite Href, Himport. unfold get_property.
  rewrite Hdefault. now destruct settles.
Qed.

Lemma thenable_default_is_adopted_witness :
  outcome (getSettings promise_project {| configFile := None |})
  = Throws (Uncaught (NonError "no settings")) /\
  outcome (getSettings promise_project {| configFile := Some "later.js" |})
  = Returns (JsObject [("rc", JsNumber double_1)]).
Proof.
  split.
  - apply (thenable_default_is_adopted promise_project {| configFile := None |}
             "file:///app/.gmrc.js"
             [("default", Thenable (RejectsWith (NonError "no settings")))]
             (RejectsWith (NonError "no settings")));
      [simpl; auto | reflexivity | reflexivity].
  - apply (thenable_default_is_adopted promise_project
             {| configFile := Some "later.js" |}
             "file:///app/later.js"
             [("default",
               Thenable (FulfilsWith (JsObject [("rc", JsNumber double_1)])))]
             (FulfilsWith (JsObject [("rc", JsNumber double_1)])));
      [simpl; auto | reflexivity | reflexivity].
Defined.

(** X8: The resolver cannot tell why a probe failed: two file systems whose
    [access] succeeds on the same paths, whatever it throws elsewhere, give
    the same probe answers and the same call, event for event. *)
Theorem access_errors_are_not_told_apart (env : Env)
    (access1 access2 : string -> Caught + unit) (options : Options) :
  (forall path, (exists u, access1 path = inr u) <-> (exists u, access2 path = inr u)) ->
  (forall path, exists_ (with_access env access1) path
                = exists_ (with_access env access2) path) /\
  getSettings (with_access env access1) options
  = getSettings (with_access env access2) options.
Proof.
  intros Hsame.
  assert (Hprobe : forall path, probe (with_access env access1) path
                                = probe (with_access env access2) path).
  { intros path. unfold probe. simpl. specialize (Hsame path).
    destruct (access1 path) as [e1|u1], (access2 path) as [e2|u2]; try reflexivity.
    - destruct Hsame as [_ H]. destruct H as [u Hu]; [eauto|discriminate].
    - destruct Hsame as [H _]. destruct H as [u Hu]; [eauto|discriminate]. }
  split.
  - intros path. now rewrite !exists_run, Hprobe.
  - destruct options as [[path|]].
    + rewrite !getSettings_explicit, Hprobe. reflexivity.
    + rewrite !getSettings_default. cbv zeta.
      change (DEFAULT_GMRC_PATH (with_access env access1))
        with (DEFAULT_GMRC_PATH (with_access env access2)).
      change (DEFAULT_GMRCJS_PATH (with_access env access1))
        with (DEFAULT_GMRCJS_PATH (with_access env access2)).
      change (DEFAULT_GMRC_COMMONJS_PATH (with_access env access1))
        with (DEFAULT_GMRC_COMMONJS_PATH (with_access env access2)).
      rewrite !Hprobe. reflexivity.
Qed.

Lemma access_errors_are_not_told_apart_witness :
  getSettings (with_access full_project (fun _ => inl ENOENT))
    {| configFile := None |}
  = getSettings (with_access full_project
                   (fun _ => inl (NonError "EACCES: permission denied")))
    {| configFile := None |}.
Proof.
  apply (access_errors_are_not_told_apart full_project).
  intros path. split; intros [u Hu]; discriminate.
Defined.

(** ** The text of an import failure *)

Lemma split_lines_single (a : string) :
  no_newline a = true ->
  forall b l ls, split_lines b = l :: ls ->
  split_lines (a ++ b) = (a ++ l) :: ls.
Proof.
  induction a as [|c a IH]; simpl; intros Ha b l ls Hb; [exact Hb|].
  apply andb_true_iff in Ha as [Hc Ha]. apply negb_true_iff in Hc.
  rewrite Hc, (IH Ha b l ls Hb). reflexivity.
Qed.

Lemma split_lines_header (h rest : string) :
  no_newline h = true ->
  split_lines (h ++ String LF rest) = h :: split_lines rest.
Proof.
  intros Hh. destruct (split_lines_cons rest) as (l & ls & Hrest).
  rewrite (split_lines_single h Hh (String LF rest) EmptyString (l :: ls)).
  - now rewrite append_empty_r, Hrest.
  - simpl. now rewrite Hrest.
Qed.

Lemma no_newline_append (a b : string) :
  no_newline (a ++ b) = no_newline a && no_newline b.
Proof.
  induction a as [|c a IH]; simpl; [reflexivity|].
  now rewrite IH, andb_assoc.
Qed.

Lemma tryRequire_throws (env : Env) (path : string) (e : Caught) :
  dynamic_import env (relativePath env path) = inl e ->
  outcome (tryRequire env path)
  = Throws (NewError ("Failed to import '" ++ relativePath env path ++ "'; error:"
                      ++ String LF "    " ++ cause_text e)).
Proof. intros H. unfold tryRequire. simpl. now rewrite H. Qed.

(** X9: When an import throws an [Error] with a stack, the message is the line
    [Failed to import '<reference>'; error:] followed by the lines of the
    stack, all of them kept and each behind four spaces, the first included. *)
Theorem import_failure_lines (env : Env) (path name message stack : string) :
  let ref := pathToFileURL_href env (path_resolve env (process_cwd env) path) in
  dynamic_import env ref = inl (ErrorObject name message (Some stack)) ->
  stack <> EmptyString ->
  no_newline ref = true ->
  exists text,
    outcome (tryRequire env path) = Throws (NewError text) /\
    split_lines text
    = ("Failed to import '" ++ ref ++ "'; error:")
      :: map (append "    ") (split_lines stack).
Proof.
  intros ref Himport Hstack Href.
  rewrite (tryRequire_throws env path _ Himport).
  change (relativePath env path) with ref.
  eexists. split; [reflexivity|].
  assert (Hcause : cause_text (ErrorObject name message (Some stack))
                   = replace_newlines stack).
  { destruct stack; [contradiction|reflexivity]. }
  rewrite Hcause.
  change (String LF "    " ++ replace_newlines stack)
    with (String LF ("    " ++ replace_newlines stack)).
  rewrite <- (append_assoc ref), <- (append_assoc "Failed to import '").
  rewrite split_lines_header.
  - f_equal. destruct (split_lines_cons stack) as (l & ls & Hls).
    rewrite (split_lines_single "    " eq_refl _ l (map (append "    ") ls)).
    + now rewrite Hls.
    + now rewrite replace_newlines_lines, Hls.
  - now rewrite !no_newline_append, Href.
Qed.

Lemma import_failure_lines_witness :
  exists text,
    outcome (tryRequire js_project "broken.js") = Throws (NewError text) /\
    split_lines text
    = ["Failed to import 'file:///app/broken.js'; error:";
       "    SyntaxError: Unexpected token";
       "        at conf.js:1"].
Proof.
  apply (import_failure_lines js_project "broken.js" "SyntaxError"
           "Unexpected token"
           ("SyntaxError: Unexpected token" ++ String LF "    at conf.js:1"));
    [reflexivity | discriminate | reflexivity].
Defined.

(** X10: Re-indenting loses nothing: two stacks with the same re-indented text are
    the same stack. *)
Theorem replace_newlines_injective (s : string) :
  forall s', replace_newlines s = replace_newlines s' -> s = s'.
Proof.
  induction s as [|c s IH]; intros [|c' s'] H; simpl in H.
  - reflexivity.
  - destruct (Ascii.eqb c' LF); discriminate.
  - destruct (Ascii.eqb c LF); discriminate.
  - destruct (Ascii.eqb_spec c LF) as [->|Hc], (Ascii.eqb_spec c' LF) as [->|Hc'].
    + injection H as H. f_equal. auto.
    + injection H as Hhead _. now destruct Hc'.
    + injection H as Hhead _. now destruct Hc.
    + injection H as -> H. f_equal. auto.
Qed.

Lemma replace_newlines_injective_witness :
  "a" ++ String LF "b" = "a" ++ String LF "b".
Proof.
  apply (replace_newlines_injective ("a" ++ String LF "b")). reflexivity.
Defined.

(** ** The database name, read backwards *)

(** X11: Whatever [getDatabaseName] returns is a non-empty string, the [database]
    field that [parse] gave; and whenever it throws, either [parse] threw and
    its exception comes out as it is, or the field was absent or empty and
    the error is the module's own. *)
Theorem getDatabaseName_inversion (env : Env) (connectionString : string) :
  (forall name, getDatabaseName env connectionString = Returns name ->
     name <> EmptyString /\
     exists parsed, pg_parse env connectionString = inr parsed
                    /\ database parsed = FieldString name) /\
  (forall ex, getDatabaseName env connectionString = Throws ex ->
     (exists e, pg_parse env connectionString = inl e /\ ex = Uncaught e)
     \/ (ex = NewError "Could not determine database name from connection string."
         /\ exists parsed, pg_parse env connectionString = inr parsed
                           /\ falsy (database parsed) = true)).
Proof.
  unfold getDatabaseName.
  destruct (pg_parse env connectionString) as [e|[field]]; cbv zeta; simpl; split.
  - discriminate.
  - intros ex H. injection H as <-. left. eauto.
  - destruct field as [| |s]; simpl; try discriminate.
    destruct s as [|c s]; simpl; [discriminate|].
    intros name H. injection H as <-. split; [discriminate|]. eauto.
  - intros ex. destruct (falsy field) eqn:Hf; [|discriminate].
    intros H. injection H as <-. right. split; [reflexivity|]. eauto.
Qed.

Lemma getDatabaseName_inversion_witness :
  "app_db" <> EmptyString /\
  exists parsed, pg_parse js_project "postgres://localhost/app_db" = inr parsed
                 /\ database parsed = FieldString "app_db".
Proof.
  destruct (getDatabaseName_inversion js_project "postgres://localhost/app_db")
    as (H & _).
  apply H. reflexivity.
Defined.
